(** * Label layout planning of the bill generator

    A shallow embedding of [app.py] (the web entry script) and [bill.py]
    (the batch entry script): text sanitising, the font-size tiers, the
    key/value extraction from CSV rows, the table-width rule, the barcode
    height planner, the barcode fitter and the reading of the barcode
    image, followed by the properties the specification states about
    them.

    Conventions.
    - A Python [str] is a list of Unicode code points ([pystr]).
    - A Python [float] is embedded in two ways.  The font tiers, the width
      rule and the height planner compute with exact rationals ([Q],
      compared with [==]).  Where the last bit decides, the code is
      embedded in binary64 as well ([float]): the constant [A4[0] / cm],
      the width rule, the barcode fitter and the reading of the barcode
      image.  The rational width rule takes its threshold from the
      binary64 constant.
    - A Python [dict] is an association list in insertion order; assigning
      to an existing key replaces the value where the key already sits.
    - [try]/[except] blocks are written with [option]: [None] is the
      raised exception. *)

From Stdlib Require Import QArith Qminmax Lqa Lia List ZArith NArith Bool String Ascii.
From Stdlib Require Import Floats Uint63.
Import ListNotations.

Set Warnings "-inexact-float".

Open Scope Q_scope.

(** ** The parts of Python's built-ins the scripts rely on *)

Module Py.

Definition pystr := list N.

(** A literal of ASCII characters as a [pystr]. *)
Definition str (s : string) : pystr :=
  List.map N_of_ascii (list_ascii_of_string s).

Definition str_eqb (a b : pystr) : bool :=
  if list_eq_dec N.eq_dec a b then true else false.

Definition between (lo hi c : N) : bool :=
  (N.leb lo c && N.leb c hi)%bool.

(** [str.isspace] on one code point, which is also what [\s] matches in a
    [str] pattern: U+0009..000D, U+001C..0020, U+0085, U+00A0, U+1680,
    U+2000..200A, U+2028, U+2029, U+202F, U+205F, U+3000. *)
Definition is_space (c : N) : bool :=
  (between 9 13 c || between 28 32 c || N.eqb c 133 || N.eqb c 160
   || N.eqb c 5760 || between 8192 8202 c || N.eqb c 8232 || N.eqb c 8233
   || N.eqb c 8239 || N.eqb c 8287 || N.eqb c 12288)%bool.

Definition SPACE : N := 32.
Definition COMMA : N := 44.

Fixpoint lstrip (s : pystr) : pystr :=
  match s with
  | [] => []
  | c :: r => if is_space c then lstrip r else s
  end.

Fixpoint rstrip (s : pystr) : pystr :=
  match s with
  | [] => []
  | c :: r =>
      match rstrip r with
      | [] => if is_space c then [] else [c]
      | r' => c :: r'
      end
  end.

(** [s.strip()] *)
Definition strip (s : pystr) : pystr := rstrip (lstrip s).

(** [sep.join(parts)] *)
Fixpoint join (sep : pystr) (parts : list pystr) : pystr :=
  match parts with
  | [] => []
  | [p] => p
  | p :: rest => p ++ sep ++ join sep rest
  end.

(** [re.sub(cls, '', s)] for a one-character class [cls]. *)
Definition re_sub_class (cls : N -> bool) (s : pystr) : pystr :=
  List.filter (fun c => negb (cls c)) s.

(** [re.sub(r"\s+", repl, s)]: every maximal run of white space becomes
    [repl]; [in_run] says that the previous character belonged to a run
    that has been replaced already. *)
Fixpoint re_sub_spaces (repl : pystr) (in_run : bool) (s : pystr) : pystr :=
  match s with
  | [] => []
  | c :: r =>
      if is_space c
      then (if in_run then re_sub_spaces repl true r
            else repl ++ re_sub_spaces repl true r)
      else c :: re_sub_spaces repl false r
  end.

(** A [dict] with [str] keys and values, in insertion order. *)
Definition dict := list (pystr * pystr).

(** [d[k] = v] *)
Fixpoint setitem (d : dict) (k v : pystr) : dict :=
  match d with
  | [] => [(k, v)]
  | (k', v') :: r =>
      if str_eqb k' k then (k', v) :: r else (k', v') :: setitem r k v
  end.

(** [d.get(k)] *)
Fixpoint get (d : dict) (k : pystr) : option pystr :=
  match d with
  | [] => None
  | (k', v') :: r => if str_eqb k' k then Some v' else get r k
  end.

Definition keys (d : dict) : list pystr := List.map fst d.

(** Comparisons of floats, as booleans. *)
Definition le (a b : Q) : bool := Qle_bool a b.
Definition lt (a b : Q) : bool := negb (Qle_bool b a).
Definition ge (a b : Q) : bool := Qle_bool b a.
Definition gt (a b : Q) : bool := negb (Qle_bool a b).

(** [sorted([a, b])], as the pair of its two elements. *)
Definition sorted2 (a b : Q) : Q * Q :=
  if lt b a then (b, a) else (a, b).

(** [a / b], which raises [ZeroDivisionError] when [b] is zero. *)
Definition truediv (a b : Q) : option Q :=
  if Qeq_bool b 0 then None else Some (a / b).

End Py.

(** ** reportlab's units and page sizes

    [reportlab.lib.units] and [reportlab.lib.pagesizes] are not part of the
    repository; the constants are those modules' definitions.  Lengths are
    in points. *)

Module Units.

Definition inch : Q := 72.0.
Definition cm : Q := inch / 2.54.
Definition mm : Q := cm * 0.1.
Definition A4 : Q * Q := (210 * mm, 297 * mm).

End Units.

(** ** The same units in binary64

    [reportlab.lib.units] and [reportlab.lib.pagesizes] once more, as the
    interpreter evaluates them, and the two conversions the embedding
    needs. *)

Module Binary64.

Definition inch : float := 72.0%float.
Definition cm : float := (inch / 2.54)%float.
Definition mm : float := (cm * 0.1)%float.
Definition A4 : float * float := ((210 * mm)%float, (297 * mm)%float).

(** [float(n)] for a pixel count [n]; exact for [0 <= n < 2^53]. *)
Definition of_px (n : Z) : float := PrimFloat.of_uint63 (Uint63.of_Z n).

(** The rational that a finite float stands for. *)
Definition to_Q (x : float) : Q :=
  match Prim2SF x with
  | S754_finite s m e =>
      (if s then - (1) else 1) * inject_Z (Z.pos m) * Qpower 2 e
  | _ => 0
  end.

End Binary64.

(** ** reportlab's flowables, as far as the scripts build them *)

Module Platypus.

Record ParagraphStyle := {
  fontSize : Z;
  fontName : string;
  leading : Q;
  wordWrap : string
}.

Inductive Cell :=
| Paragraph (text : Py.pystr) (style : ParagraphStyle)
| Image (width height : float)
| Plain (text : Py.pystr).

End Platypus.

(** An uploaded file of the web form. *)
Record Upload := {
  filename : Py.pystr;
  content : list N
}.

(** ** app.py, the width rule and the barcode in binary64 *)

Module App64.
Import Py Platypus.

Definition a4_page_width_cm : float :=
  (fst Binary64.A4 / Binary64.cm)%float.

Definition total_table_width_cm (smallest_side : float) : float :=
  let total_table_width_cm :=
    if (a4_page_width_cm <? smallest_side)%float
    then 20.0%float
    else (smallest_side - 1.0)%float in
  if (total_table_width_cm <=? 0)%float then 1.0%float
  else total_table_width_cm.

(** The size given to the barcode image, (width, height), from the
    planned height, the table width and the pixel size, once the pixel
    height is known not to be zero.  The quotient of the two pixel counts
    is the quotient of their floats, as it is for counts below 2^53.
    [None]: the division by a zero aspect ratio raised
    [ZeroDivisionError]. *)
Definition final_barcode_size
  (target_barcode_height total_table_width : float)
  (img_width_px img_height_px : Z) : option (float * float) :=
  let aspect_ratio :=
    (Binary64.of_px img_width_px / Binary64.of_px img_height_px)%float in
  let final_barcode_height := target_barcode_height in
  let final_barcode_width := (aspect_ratio * final_barcode_height)%float in
  let max_width := total_table_width in
  if (max_width <? final_barcode_width)%float
  then
    let final_barcode_width := (max_width * 0.98)%float in
    if (aspect_ratio =? 0)%float then None
    else Some (final_barcode_width, (final_barcode_width / aspect_ratio)%float)
  else Some (final_barcode_width, final_barcode_height).

Section Barcode.

(** [PILImage.open(...).size]: the pixel width and height, [None] when
    PIL raises.  PIL reads them from the head of the file. *)
Context (pil_size : list N -> option (Z * Z)).

(** The [try] block that reads the uploaded barcode: the row to append,
    if any.  Every exception inside it ends in [barcode_exists = False].
    reportlab's [Image(...)] only records the stream and the size it is
    given; the pixel data is read when the document is built. *)
Definition barcode_row (barcode_file : option Upload)
  (target_barcode_height total_table_width : float) : option (list Cell) :=
  match barcode_file with
  | None => None
  | Some f =>
      match filename f with
      | [] => None
      | _ :: _ =>
          match pil_size (content f) with
          | None => None
          | Some (img_width_px, img_height_px) =>
              if (0 <? img_height_px)%Z
              then
                match final_barcode_size target_barcode_height
                        total_table_width img_width_px img_height_px with
                | Some (final_barcode_width, final_barcode_height) =>
                    Some [Image final_barcode_width final_barcode_height;
                          Plain []]
                | None => None
                end
              else None
          end
      end
  end.

End Barcode.

End App64.

(** ** bill.py, the width rule and the barcode in binary64 *)

Module Bill64.
Import Py Platypus.

Definition a4_page_width_cm : float :=
  (fst Binary64.A4 / Binary64.cm)%float.

Definition total_table_width_cm (smallest_side : float) : float :=
  let total_table_width_cm :=
    if (a4_page_width_cm <? smallest_side)%float
    then 20.0%float
    else (smallest_side - 1.0)%float in
  if (total_table_width_cm <=? 0)%float then 1.0%float
  else total_table_width_cm.

(** The size given to the barcode image, (width, height), from the
    planned height, the table width and the pixel size, once the pixel
    height is known not to be zero.  The quotient of the two pixel counts
    is the quotient of their floats, as it is for counts below 2^53.
    [None]: the division by a zero aspect ratio raised
    [ZeroDivisionError]. *)
Definition final_barcode_size
  (target_barcode_height total_table_width : float)
  (img_width_px img_height_px : Z) : option (float * float) :=
  let aspect_ratio :=
    (Binary64.of_px img_width_px / Binary64.of_px img_height_px)%float in
  let final_barcode_height := target_barcode_height in
  let final_barcode_width := (aspect_ratio * final_barcode_height)%float in
  let max_width := total_table_width in
  if (max_width <? final_barcode_width)%float
  then
    let final_barcode_width := (max_width * 0.98)%float in
    if (aspect_ratio =? 0)%float then None
    else Some (final_barcode_width, (final_barcode_width / aspect_ratio)%float)
  else Some (final_barcode_width, final_barcode_height).

Section Barcode.

(** [PILImage.open(...).size]: the pixel width and height, [None] when
    PIL raises.  PIL reads them from the head of the file. *)
Context (pil_size : list N -> option (Z * Z)).

(** Step 5: the row to append for [barcode.png], if any; [barcode_png] is
    [None] when the file does not exist.  A zero pixel height raises
    inside the [try], like a file PIL cannot open.  reportlab's
    [Image(...)] only records the path and the size it is given; the
    pixel data is read when the document is built. *)
Definition barcode_row (barcode_png : option (list N))
  (target_barcode_height total_table_width : float) : option (list Cell) :=
  match barcode_png with
  | None => None
  | Some bytes =>
      match pil_size bytes with
      | None => None
      | Some (img_width_px, img_height_px) =>
          if (img_height_px =? 0)%Z
          then None
          else
            match final_barcode_size target_barcode_height
                    total_table_width img_width_px img_height_px with
            | Some (final_barcode_width, final_barcode_height) =>
                Some [Image final_barcode_width final_barcode_height;
                      Plain []]
            | None => None
            end
      end
  end.

End Barcode.

End Bill64.

(** ** app.py *)

Module App.
Import Py Units Platypus.

Definition get_font_size_pt (area_cm2 : option Q) : Z :=
  match area_cm2 with
  | None => 8
  | Some area_cm2 =>
      if le area_cm2 50 then 8
      else if le area_cm2 100 then 9
      else if le area_cm2 500 then 10
      else if le area_cm2 2500 then 16
      else 24
  end%Z.

(** The character class of the first [re.sub]: U+0000..001F, U+007F..009F,
    U+2000..206F, U+25A0, U+25A1, U+25CF, U+25FE, U+25FB, U+25AA, U+25AB and
    U+25A1 once more. *)
Definition removed (c : N) : bool :=
  (between 0 31 c || between 127 159 c || between 8192 8303 c
   || N.eqb c 9632 || N.eqb c 9633 || N.eqb c 9679 || N.eqb c 9726
   || N.eqb c 9723 || N.eqb c 9642 || N.eqb c 9643 || N.eqb c 9633)%bool.

Definition clean_text (text : pystr) : pystr :=
  let text := strip text in
  let text := re_sub_class removed text in
  let text := re_sub_spaces [SPACE] false text in
  text.

(** The body of [for row in reader]. *)
Definition read_row (data : dict) (row : list pystr) : dict :=
  match row with
  | [] => data
  | [only] => setitem data (strip only) []
  | key :: rest => setitem data (strip key) (strip (join [COMMA] rest))
  end.

Definition read_rows (rows : list (list pystr)) : dict :=
  fold_left read_row rows [].

(** The width logic: [smallest_side] in cm to the table width in cm.
    [A4[0] / cm] is evaluated once, in binary64, and its value is taken
    as it is. *)
Definition a4_page_width_cm : Q := Binary64.to_Q App64.a4_page_width_cm.

Definition total_table_width_cm (smallest_side : Q) : Q :=
  let total_table_width_cm :=
    if gt smallest_side a4_page_width_cm then 20.0 else smallest_side - 1.0 in
  if le total_table_width_cm 0 then 1.0 else total_table_width_cm.

Definition TOP_SPACER_HEIGHT : Q := 0.2 * cm.
Definition BOTTOM_PADDING_HEIGHT : Q := 3 * (cm / 72.0).
Definition TOTAL_ROW_PADDING : Q := TOP_SPACER_HEIGHT + BOTTOM_PADDING_HEIGHT.
Definition MIN_BARCODE_IMAGE_HEIGHT : Q := 0.5 * cm.

(** The barcode height decision, from the height of the table without
    barcode and the larger side of the label. *)
Definition target_barcode_height
  (main_table_height_points second_smallest_side : Q) : Q :=
  let max_allowed_height_points := second_smallest_side * cm in
  if ge main_table_height_points max_allowed_height_points
  then main_table_height_points / 7.0
  else
    let barcode_height_1_7th := main_table_height_points / 7.0 in
    let total_height_with_1_7th :=
      main_table_height_points + barcode_height_1_7th + TOTAL_ROW_PADDING in
    if le total_height_with_1_7th max_allowed_height_points
    then barcode_height_1_7th
    else
      let remaining_space_for_image :=
        max_allowed_height_points - main_table_height_points
        - TOTAL_ROW_PADDING in
      if lt remaining_space_for_image MIN_BARCODE_IMAGE_HEIGHT
      then MIN_BARCODE_IMAGE_HEIGHT
      else remaining_space_for_image.

Definition custom_text (arial_font : string) (font_size_pt : Z)
  : ParagraphStyle :=
  {| fontSize := font_size_pt;
     fontName := arial_font;
     leading := inject_Z font_size_pt * 1.1;
     wordWrap := "CJK" |}.

Definition table_data (style : ParagraphStyle) (data : dict) : list (list Cell) :=
  List.map (fun '(col_name, val) =>
              [Paragraph (clean_text col_name) style;
               Paragraph (clean_text val) style]) data.

End App.

(** ** bill.py *)

Module Bill.
Import Py Units Platypus.

Definition get_font_size_pt (area_cm2 : option Q) : Z :=
  match area_cm2 with
  | None => 8
  | Some area_cm2 =>
      if le area_cm2 50 then 8
      else if le area_cm2 100 then 9
      else if le area_cm2 500 then 10
      else if le area_cm2 2500 then 16
      else 24
  end%Z.

(** The body of [for row in reader]. *)
Definition read_row (data : dict) (row : list pystr) : dict :=
  match row with
  | [] => data
  | [only] => setitem data (strip only) []
  | key :: rest => setitem data (strip key) (strip (join [COMMA] rest))
  end.

Definition read_rows (rows : list (list pystr)) : dict :=
  fold_left read_row rows [].

(** The character class of the first [re.sub], as written in this file. *)
Definition removed (c : N) : bool :=
  (between 0 31 c || between 127 159 c || between 8192 8303 c
   || N.eqb c 9632 || N.eqb c 9633 || N.eqb c 9679 || N.eqb c 9726
   || N.eqb c 9723 || N.eqb c 9642 || N.eqb c 9643 || N.eqb c 9633)%bool.

Definition clean_text (text : pystr) : pystr :=
  let text := strip text in
  let text := re_sub_class removed text in
  let text := re_sub_spaces [SPACE] false text in
  text.

(** [A4[0] / cm], evaluated once in binary64. *)
Definition a4_page_width_cm : Q := Binary64.to_Q Bill64.a4_page_width_cm.

Definition total_table_width_cm (smallest_side : Q) : Q :=
  let total_table_width_cm :=
    if gt smallest_side a4_page_width_cm then 20.0 else smallest_side - 1.0 in
  if le total_table_width_cm 0 then 1.0 else total_table_width_cm.

Definition TOP_SPACER_HEIGHT : Q := 0.2 * cm.
Definition BOTTOM_PADDING_HEIGHT : Q := 3 * (cm / 72.0).
Definition TOTAL_ROW_PADDING : Q := TOP_SPACER_HEIGHT + BOTTOM_PADDING_HEIGHT.
Definition MIN_BARCODE_IMAGE_HEIGHT : Q := 0.5 * cm.

Definition target_barcode_height
  (main_table_height_points second_smallest_side : Q) : Q :=
  let max_allowed_height_points := second_smallest_side * cm in
  if ge main_table_height_points max_allowed_height_points
  then main_table_height_points / 7.0
  else
    let barcode_height_1_7th := main_table_height_points / 7.0 in
    let total_height_with_1_7th :=
      main_table_height_points + barcode_height_1_7th + TOTAL_ROW_PADDING in
    if le total_height_with_1_7th max_allowed_height_points
    then barcode_height_1_7th
    else
      let remaining_space_for_image :=
        max_allowed_height_points - main_table_height_points
        - TOTAL_ROW_PADDING in
      if lt remaining_space_for_image MIN_BARCODE_IMAGE_HEIGHT
      then MIN_BARCODE_IMAGE_HEIGHT
      else remaining_space_for_image.

Definition custom_text (arial_font : string) (font_size_pt : Z)
  : ParagraphStyle :=
  {| fontSize := font_size_pt;
     fontName := arial_font;
     leading := inject_Z font_size_pt * 1.1;
     wordWrap := "CJK" |}.

Definition table_data (style : ParagraphStyle) (data : dict) : list (list Cell) :=
  List.map (fun '(col_name, val) =>
              [Paragraph (clean_text col_name) style;
               Paragraph (clean_text val) style]) data.

End Bill.

(** ** Font registration and the header font

    The start-up block and the font choice of [add_page_header] read the
    same in app.py and bill.py. *)

Module Fonts.

(** What the loop meets at one candidate path: no file, a file that
    [registerFont] rejects, or a file it accepts. *)
Inductive FontFile := Missing | Rejected | Accepted.

(** The [for path in arial_paths] loop: the final [arial_registered]. *)
Fixpoint arial_registered (arial_paths : list FontFile) : bool :=
  match arial_paths with
  | [] => false
  | Missing :: rest => arial_registered rest
  | Rejected :: rest => arial_registered rest
  | Accepted :: _ => true
  end.

(** The outer [try]: [None] is an exception raised before the loop ends. *)
Definition arial_font (arial_paths : option (list FontFile)) : string :=
  match arial_paths with
  | None => "Helvetica"
  | Some paths => if arial_registered paths then "Arial" else "Helvetica"
  end.

(** [needle in hay] *)
Definition contains (needle hay : string) : bool :=
  match String.index 0 needle hay with
  | Some _ => true
  | None => false
  end.

Definition bold_font (arial_font : string) : string :=
  if contains "Arial" arial_font
  then String.append arial_font "-Bold"
  else "Helvetica-Bold".

End Fonts.

(** ** Reference definitions

    The rules as the specification words them, to compare the scripts
    with, and a stand-in for PIL to run the barcode code on. *)

Module Spec.
Import Py Units.

(** Section 8: below the A4 width the table width is
    [max(min(s1,s2) - 1.0, 1.0)]. *)
Definition width_by_max (m : Q) : Q := Qmax (m - 1.0) 1.0.

(** Section 4.5, with the bottom padding left open: heights in points. *)
Definition target (bottomPadding tableHeight maxAllowed : Q) : Q :=
  let topSpacer := 0.2 * cm in
  let minBarcodeHeight := 0.5 * cm in
  if ge tableHeight maxAllowed then tableHeight / 7
  else
    let oneSeventh := tableHeight / 7 in
    let totalWithOneSeventh :=
      tableHeight + oneSeventh + topSpacer + bottomPadding in
    if le totalWithOneSeventh maxAllowed then oneSeventh
    else
      let remaining := maxAllowed - tableHeight - topSpacer - bottomPadding in
      if lt remaining minBarcodeHeight then minBarcodeHeight else remaining.

(** Section 4.3, one row: the (key, value) it contributes, if any. *)
Definition row_entry (row : list pystr) : option (pystr * pystr) :=
  match row with
  | [] => None
  | [only] => Some (strip only, [])
  | key :: rest => Some (strip key, strip (join [COMMA] rest))
  end.

(** The value of the last row whose key is [k]. *)
Fixpoint last_value (k : pystr) (rows : list (list pystr)) : option pystr :=
  match rows with
  | [] => None
  | row :: later =>
      match last_value k later with
      | Some v => Some v
      | None =>
          match row_entry row with
          | Some (k', v) => if str_eqb k' k then Some v else None
          | None => None
          end
      end
  end.

(** Section 4.1 promises single spaces inside and none at the ends.
    [single_spaced after_space s]: the only white space in [s] is U+0020,
    never twice in a row, and not first when [after_space]. *)
Fixpoint single_spaced (after_space : bool) (s : pystr) : bool :=
  match s with
  | [] => true
  | c :: r =>
      if is_space c
      then (N.eqb c SPACE && negb after_space && single_spaced true r)%bool
      else single_spaced false r
  end.

(** A character that the first substitution of [clean_text] leaves in. *)
Definition kept (c : N) : Prop := App.removed c = false.

Definition starts_clean (s : pystr) : bool :=
  match s with
  | [] => true
  | c :: _ => negb (is_space c)
  end.

Fixpoint ends_clean (s : pystr) : bool :=
  match s with
  | [] => true
  | c :: r =>
      match r with
      | [] => negb (is_space c)
      | _ :: _ => ends_clean r
      end
  end.

(** An entry whose key and value have no white space at either end. *)
Definition trimmed_entry (kv : pystr * pystr) : Prop :=
  strip (fst kv) = fst kv /\ strip (snd kv) = snd kv.

(** The texts of the first and of the second cell of the rows that
    consist of two paragraphs. *)
Definition key_column (rows : list (list Platypus.Cell)) : list pystr :=
  flat_map (fun row => match row with
                       | [Platypus.Paragraph k _; Platypus.Paragraph _ _] => [k]
                       | _ => []
                       end) rows.

Definition value_column (rows : list (list Platypus.Cell)) : list pystr :=
  flat_map (fun row => match row with
                       | [Platypus.Paragraph _ _; Platypus.Paragraph v _] => [v]
                       | _ => []
                       end) rows.

(** The keys that a sequence of rows mentions, row by row. *)
Definition row_keys (rows : list (list pystr)) : list pystr :=
  flat_map (fun row => match row_entry row with
                       | Some (k, _) => [k]
                       | None => []
                       end) rows.

Definition mentions (ks : list pystr) (k : pystr) : bool :=
  existsb (fun x => str_eqb x k) ks.

(** [ks] without repetitions, each key where it first occurs. *)
Fixpoint first_seen (ks : list pystr) : list pystr :=
  match ks with
  | [] => []
  | k :: r => k :: List.filter (fun x => negb (str_eqb k x)) (first_seen r)
  end.

End Spec.

Module Demo.
Import Py.

(** A stand-in for PIL on an image format of two header bytes, width then
    height, followed by the pixel data.  Like [PILImage.open] it reads the
    header and does not look at the data behind it. *)
Definition image_size (bytes : list N) : option (Z * Z) :=
  match bytes with
  | w :: h :: _ => Some (Z.of_N w, Z.of_N h)
  | _ => None
  end.

Definition upload (name : string) (bytes : list N) : Upload :=
  {| filename := str name; content := bytes |}.

End Demo.

(** * Properties *)

Import Py Units Platypus.

(** ** Comparisons *)

Lemma le_true (a b : Q) : le a b = true <-> a <= b.
Proof. unfold le. apply Qle_bool_iff. Qed.

Lemma le_false (a b : Q) : le a b = false <-> b < a.
Proof.
  unfold le. split; intro H.
  - apply Qnot_le_lt. intro L. apply Qle_bool_iff in L. congruence.
  - destruct (Qle_bool a b) eqn:E; [|reflexivity].
    apply Qle_bool_iff in E. exfalso. apply (Qlt_not_le _ _ H E).
Qed.

Lemma gt_true (a b : Q) : gt a b = true <-> b < a.
Proof.
  unfold gt. rewrite negb_true_iff. apply le_false.
Qed.

Lemma gt_false (a b : Q) : gt a b = false <-> a <= b.
Proof.
  unfold gt. rewrite negb_false_iff. apply le_true.
Qed.

Lemma lt_true (a b : Q) : lt a b = true <-> a < b.
Proof. apply (gt_true b a). Qed.

Lemma lt_false (a b : Q) : lt a b = false <-> b <= a.
Proof. apply (gt_false b a). Qed.

Lemma ge_true (a b : Q) : ge a b = true <-> b <= a.
Proof. apply (le_true b a). Qed.

Lemma ge_false (a b : Q) : ge a b = false <-> a < b.
Proof. apply (le_false b a). Qed.

(** Case analysis on every comparison in the goal and in the hypotheses,
    each turned into the order fact it decides. *)
Ltac split_cmp a b :=
  let E := fresh "E" in
  destruct (Qle_bool a b) eqn:E;
  [apply (proj1 (le_true a b)) in E | apply (proj1 (le_false a b)) in E];
  simpl negb in *; cbv iota in *.

Ltac by_cases :=
  unfold le, lt, ge, gt in *; simpl negb in *;
  repeat match goal with
  | |- context [Qle_bool ?a ?b] => split_cmp a b
  | H : context [Qle_bool ?a ?b] |- _ => split_cmp a b
  end.

Lemma sorted2_min (a b : Q) : fst (sorted2 a b) = Qmin a b.
Proof.
  unfold sorted2, Qmin, GenericMinMax.gmin.
  destruct (lt b a) eqn:E.
  - apply lt_true in E. apply Qgt_alt in E. rewrite E. reflexivity.
  - apply lt_false in E. destruct (a ?= b) eqn:C; try reflexivity.
    apply Qgt_alt in C. exfalso. apply (Qlt_not_le _ _ C E).
Qed.

(** ** The table width *)

Lemma a4_binary64 :
  App64.a4_page_width_cm = 21.000000000000004%float
  /\ Bill64.a4_page_width_cm = 21.000000000000004%float.
Proof. split; reflexivity. Qed.

Lemma a4_exact :
  App.a4_page_width_cm == 21 + (1 # 281474976710656)
  /\ Bill.a4_page_width_cm == 21 + (1 # 281474976710656).
Proof. split; vm_compute; reflexivity. Qed.

Lemma app_width_positive (s : Q) : 0 < App.total_table_width_cm s.
Proof.
  unfold App.total_table_width_cm. by_cases; lra.
Qed.

Lemma bill_width_positive (s : Q) : 0 < Bill.total_table_width_cm s.
Proof.
  unfold Bill.total_table_width_cm. by_cases; lra.
Qed.

(** Below the threshold the width is the side minus 1.0, unless that is
    not positive. *)
Lemma app_width_below (m : Q) :
  m <= 21.0 ->
  (1.0 < m -> App.total_table_width_cm m == m - 1.0)
  /\ (m <= 1.0 -> App.total_table_width_cm m == 1.0).
Proof.
  intro H. pose proof (proj1 a4_exact) as A.
  unfold App.total_table_width_cm.
  by_cases; split; intros; try reflexivity; lra.
Qed.

Lemma bill_width_below (m : Q) :
  m <= 21.0 ->
  (1.0 < m -> Bill.total_table_width_cm m == m - 1.0)
  /\ (m <= 1.0 -> Bill.total_table_width_cm m == 1.0).
Proof.
  intro H. pose proof (proj2 a4_exact) as A.
  unfold Bill.total_table_width_cm.
  by_cases; split; intros; try reflexivity; lra.
Qed.

(** C1.  [A4[0] / cm] is 21.000000000000004 in binary64, not 21.0.  The
    side 21.000000000000004 exceeds 21.0 and yet fails the test
    [smallest_side > a4_page_width_cm] of both scripts, which give it the
    width 20.000000000000004 and not 20.0; the next float up is clamped
    to 20.0.  The rational width rule, whose threshold is that constant,
    computes the same. *)
Theorem a4_threshold_misses_21 :
  let side := 21.000000000000004%float in
  let next := 21.000000000000007%float in
  App64.a4_page_width_cm = 21.000000000000004%float
  /\ Bill64.a4_page_width_cm = 21.000000000000004%float
  /\ (21.0 <? App64.a4_page_width_cm)%float = true
  /\ (0 <? side)%float = true
  /\ (21.0 <? side)%float = true
  /\ (App64.a4_page_width_cm <? side)%float = false
  /\ App64.total_table_width_cm side = 20.000000000000004%float
  /\ Bill64.total_table_width_cm side = 20.000000000000004%float
  /\ (App64.total_table_width_cm side =? 20.0)%float = false
  /\ (Bill64.total_table_width_cm side =? 20.0)%float = false
  /\ App64.total_table_width_cm next = 20.0%float
  /\ App.total_table_width_cm (Binary64.to_Q side)
     == Binary64.to_Q 20.000000000000004%float
  /\ ~ App.total_table_width_cm (Binary64.to_Q side) == 20.0
  /\ ~ Bill.total_table_width_cm (Binary64.to_Q side) == 20.0.
Proof.
  cbv zeta. repeat split; try reflexivity; vm_compute; congruence.
Qed.

(** C2, as stated, fails: with sides 1.5 and 3 the smaller side lies
    between 1.0 and 2.0, both scripts choose 0.5 cm, in rationals and in
    binary64, and [max (1.5 - 1.0) 1.0] is 1.0. *)
Lemma width_by_max_counterexample :
  let s1 := 1.5 in
  let s2 := 3 in
  let m := Qmin s1 s2 in
  0 < s1 /\ 0 < s2 /\ m <= 21.0 /\ 1.0 < m /\ m < 2.0
  /\ fst (sorted2 s1 s2) == m
  /\ App.total_table_width_cm (fst (sorted2 s1 s2)) == 0.5
  /\ ~ App.total_table_width_cm (fst (sorted2 s1 s2)) == Spec.width_by_max m
  /\ ~ App.total_table_width_cm (fst (sorted2 s1 s2)) == 1.0
  /\ Bill.total_table_width_cm (fst (sorted2 s1 s2)) == 0.5
  /\ ~ Bill.total_table_width_cm (fst (sorted2 s1 s2)) == Spec.width_by_max m
  /\ ~ Bill.total_table_width_cm (fst (sorted2 s1 s2)) == 1.0
  /\ App64.total_table_width_cm 1.5%float = 0.5%float
  /\ Bill64.total_table_width_cm 1.5%float = 0.5%float.
Proof.
  cbv zeta. repeat split; try reflexivity; vm_compute; congruence.
Qed.

(** C2, amended.  For positive sides whose smaller one [m] is at most
    21.0, the table width of both scripts is [m - 1.0] when [m] exceeds
    1.0 and 1.0 otherwise; when [1.0 < m < 2.0] it is [m - 1.0], strictly
    between 0 and 1. *)
Theorem table_width_below_a4 (s1 s2 : Q) :
  0 < s1 -> 0 < s2 -> Qmin s1 s2 <= 21.0 ->
  let m := Qmin s1 s2 in
  let smallest_side := fst (sorted2 s1 s2) in
  let width_ok (w : Q) :=
    (1.0 < m -> w == m - 1.0) /\ (m <= 1.0 -> w == 1.0) /\
    (1.0 < m -> m < 2.0 -> 0 < w /\ w < 1.0) in
  width_ok (App.total_table_width_cm smallest_side)
  /\ width_ok (Bill.total_table_width_cm smallest_side).
Proof.
  intros H1 H2 Hm m smallest_side width_ok.
  subst m smallest_side width_ok. cbv beta. rewrite sorted2_min.
  destruct (app_width_below (Qmin s1 s2) Hm) as [A1 A2].
  destruct (bill_width_below (Qmin s1 s2) Hm) as [B1 B2].
  repeat split; intros;
    try (rewrite A1 by assumption); try (rewrite B1 by assumption);
    try (apply A2; assumption); try (apply B2; assumption);
    try reflexivity; lra.
Qed.

Lemma table_width_below_a4_witness :
  (1.0 < Qmin 1.5 3 ->
   Bill.total_table_width_cm (fst (sorted2 1.5 3)) == Qmin 1.5 3 - 1.0)
  /\ (Qmin 1.5 3 <= 1.0 ->
      Bill.total_table_width_cm (fst (sorted2 1.5 3)) == 1.0)
  /\ (1.0 < Qmin 1.5 3 -> Qmin 1.5 3 < 2.0 ->
      0 < Bill.total_table_width_cm (fst (sorted2 1.5 3))
      /\ Bill.total_table_width_cm (fst (sorted2 1.5 3)) < 1.0).
Proof.
  refine (proj2 (table_width_below_a4 1.5 3 _ _ _)).
  - reflexivity.
  - reflexivity.
  - vm_compute. discriminate.
Defined.

(** ** The barcode height planner *)

Lemma div_7 (h : Q) : h / 7.0 == h / 7.
Proof. unfold Qdiv. apply Qmult_comp; reflexivity. Qed.

Ltac plain_sevenths :=
  repeat match goal with
  | H : context [_ / 7.0] |- _ => rewrite div_7 in H
  end;
  rewrite ?div_7.

(** Both scripts follow the decision procedure of section 4.5, with their
    own constant as the bottom padding. *)
Lemma app_target_follows_procedure (h s : Q) :
  App.target_barcode_height h s
  == Spec.target App.BOTTOM_PADDING_HEIGHT h (s * cm).
Proof.
  unfold App.target_barcode_height, Spec.target, App.TOTAL_ROW_PADDING,
    App.MIN_BARCODE_IMAGE_HEIGHT, App.TOP_SPACER_HEIGHT.
  generalize App.BOTTOM_PADDING_HEIGHT as p. generalize cm as c. intros c p.
  by_cases; plain_sevenths; lra.
Qed.

Lemma bill_target_follows_procedure (h s : Q) :
  Bill.target_barcode_height h s
  == Spec.target Bill.BOTTOM_PADDING_HEIGHT h (s * cm).
Proof.
  unfold Bill.target_barcode_height, Spec.target, Bill.TOTAL_ROW_PADDING,
    Bill.MIN_BARCODE_IMAGE_HEIGHT, Bill.TOP_SPACER_HEIGHT.
  generalize Bill.BOTTOM_PADDING_HEIGHT as p. generalize cm as c. intros c p.
  by_cases; plain_sevenths; lra.
Qed.

(** C3.  The bottom padding used by the planner of both scripts is
    [3 * (cm / 72.0)], which is 3 / 2.54 points (about 1.18) and not 3
    points.  On a 3 cm by 3 cm label with a table measured at 68 points
    the scripts plan 68 / 7 points of barcode, where a padding of 3 points
    plans the minimum of 0.5 cm. *)
Theorem bottom_padding_value :
  App.BOTTOM_PADDING_HEIGHT == 3 / 2.54 /\
  ~ App.BOTTOM_PADDING_HEIGHT == 3 /\
  Bill.BOTTOM_PADDING_HEIGHT == 3 / 2.54 /\
  ~ Bill.BOTTOM_PADDING_HEIGHT == 3 /\
  App.target_barcode_height 68 3 == 68 / 7 /\
  Bill.target_barcode_height 68 3 == 68 / 7 /\
  Spec.target 3 68 (3 * cm) == 0.5 * cm /\
  ~ App.target_barcode_height 68 3 == Spec.target 3 68 (3 * cm).
Proof.
  repeat split; vm_compute; congruence.
Qed.

(** ** The font size *)

(** C4.  The font size is 8 up to 50 cm2, 9 up to 100, 10 up to 500, 16 up
    to 2500 and 24 above, and 8 when there is no area; in both scripts. *)
Theorem font_size_tiers (a : Q) :
  let tiers (f : option Q -> Z) :=
    (a <= 50 -> f (Some a) = 8%Z) /\
    (50 < a -> a <= 100 -> f (Some a) = 9%Z) /\
    (100 < a -> a <= 500 -> f (Some a) = 10%Z) /\
    (500 < a -> a <= 2500 -> f (Some a) = 16%Z) /\
    (2500 < a -> f (Some a) = 24%Z) /\
    f None = 8%Z in
  tiers App.get_font_size_pt /\ tiers Bill.get_font_size_pt.
Proof.
  cbv zeta beta. unfold App.get_font_size_pt, Bill.get_font_size_pt.
  by_cases; repeat split; intros; try reflexivity; exfalso; lra.
Qed.

Lemma font_size_tiers_witness :
  App.get_font_size_pt (Some 150) = 10%Z /\
  Bill.get_font_size_pt (Some 2500) = 16%Z.
Proof.
  split.
  - refine (proj1 (proj2 (proj2 (proj1 (font_size_tiers 150)))) _ _);
      reflexivity || (vm_compute; discriminate).
  - refine (proj1 (proj2 (proj2 (proj2 (proj2 (font_size_tiers 2500))))) _ _);
      reflexivity || (vm_compute; discriminate).
Defined.

(** ** The barcode fitter *)

Section Binary64Order.

Lemma SFcompare_antisym (x y : spec_float) :
  SFcompare y x = match SFcompare x y with
                  | Some c => Some (CompOpp c)
                  | None => None
                  end.
Proof.
  destruct x as [sx|sx| |sx mx ex], y as [sy|sy| |sy my ey]; simpl;
    try reflexivity;
    try (destruct sx; try destruct sy; reflexivity).
  destruct sx, sy; simpl; try reflexivity.
  - rewrite (Z.compare_antisym ex ey).
    destruct (ex ?= ey)%Z; simpl; try reflexivity.
    change (Pos.compare_cont Eq my mx)
      with (Pos.compare_cont (CompOpp Eq) my mx).
    rewrite <- Pos.compare_cont_antisym. reflexivity.
  - rewrite (Z.compare_antisym ex ey).
    destruct (ex ?= ey)%Z; simpl; try reflexivity.
    change (Pos.compare_cont Eq my mx)
      with (Pos.compare_cont (CompOpp Eq) my mx).
    rewrite <- Pos.compare_cont_antisym.
    destruct (Pos.compare_cont Eq mx my); reflexivity.
Qed.

(** [x <= y] rules out [y < x]. *)
Lemma leb_not_gt (x y : float) :
  (x <=? y)%float = true -> (y <? x)%float = false.
Proof.
  rewrite FloatAxioms.leb_spec, FloatAxioms.ltb_spec.
  unfold SFleb, SFltb. rewrite (SFcompare_antisym (Prim2SF x) (Prim2SF y)).
  destruct (SFcompare (Prim2SF x) (Prim2SF y)) as [[| |]|];
    simpl; try discriminate; reflexivity.
Qed.

Lemma zero_spec : Prim2SF 0%float = S754_zero false.
Proof. reflexivity. Qed.

(** A product that exceeds a positive number has no zero factor on the
    left: zero times anything is zero or not a number. *)
Lemma positive_excludes_zero (W a h : float) :
  (0 <? W)%float = true -> (W <? a * h)%float = true ->
  (a =? 0)%float = false.
Proof.
  rewrite !FloatAxioms.ltb_spec, FloatAxioms.eqb_spec, FloatAxioms.mul_spec,
    zero_spec.
  unfold SFltb, SFeqb, SF64mul.
  destruct (Prim2SF a) as [sa|sa| |sa ma ea]; simpl; try reflexivity;
    try (destruct sa; reflexivity).
  destruct (Prim2SF h) as [sh|sh| |sh mh eh]; simpl;
    destruct (Prim2SF W) as [sw|sw| |sw mw ew]; simpl;
    try discriminate; try (destruct sw; discriminate).
Qed.

End Binary64Order.

Lemma fit_within (size : float -> float -> Z -> Z -> option (float * float))
  (h W : float) (wPx hPx : Z) :
  size = App64.final_barcode_size \/ size = Bill64.final_barcode_size ->
  (W <? Binary64.of_px wPx / Binary64.of_px hPx * h)%float = false ->
  size h W wPx hPx
  = Some ((Binary64.of_px wPx / Binary64.of_px hPx * h)%float, h).
Proof.
  intros [-> | ->] H;
    unfold App64.final_barcode_size, Bill64.final_barcode_size;
    cbv zeta; rewrite H; reflexivity.
Qed.

Lemma fit_rescaled (size : float -> float -> Z -> Z -> option (float * float))
  (h W : float) (wPx hPx : Z) :
  size = App64.final_barcode_size \/ size = Bill64.final_barcode_size ->
  (0 <? W)%float = true ->
  (W <? Binary64.of_px wPx / Binary64.of_px hPx * h)%float = true ->
  size h W wPx hPx
  = Some ((W * 0.98)%float,
          (W * 0.98 / (Binary64.of_px wPx / Binary64.of_px hPx))%float).
Proof.
  intros Hsize HW H.
  pose proof (positive_excludes_zero W _ h HW H) as Z0.
  destruct Hsize as [-> | ->];
    unfold App64.final_barcode_size, Bill64.final_barcode_size;
    cbv zeta; rewrite H, Z0; reflexivity.
Qed.

Lemma fit_defined (size : float -> float -> Z -> Z -> option (float * float))
  (h W : float) (wPx hPx : Z) :
  size = App64.final_barcode_size \/ size = Bill64.final_barcode_size ->
  (0 <? W)%float = true ->
  exists fw fh, size h W wPx hPx = Some (fw, fh).
Proof.
  intros Hsize HW.
  destruct (W <? Binary64.of_px wPx / Binary64.of_px hPx * h)%float eqn:E.
  - eexists. eexists. apply fit_rescaled; assumption.
  - eexists. eexists. apply fit_within; assumption.
Qed.

(** C5, as stated, fails in the arithmetic of the code: for an image of
    574 by 100 pixels planned at 50 points in a table of 9 cm, both
    scripts rescale to the width [W * 0.98] and the height
    [W * 0.98 / aspect], and the quotient of the two is
    5.7400000000000011, not the aspect ratio 5.7400000000000002. *)
Lemma barcode_ratio_counterexample :
  let h := 50%float in
  let W := (9.0 * Binary64.cm)%float in
  let aspect := (Binary64.of_px 574 / Binary64.of_px 100)%float in
  (0 < 100)%Z
  /\ (0 <? W)%float = true
  /\ (W <? aspect * h)%float = true
  /\ (exists fw fh,
        App64.final_barcode_size h W 574 100 = Some (fw, fh)
        /\ fw = (W * 0.98)%float /\ fh = (fw / aspect)%float
        /\ (fw / fh)%float = 5.7400000000000011%float
        /\ aspect = 5.7400000000000002%float
        /\ (fw / fh =? aspect)%float = false)
  /\ (exists fw fh,
        Bill64.final_barcode_size h W 574 100 = Some (fw, fh)
        /\ (fw / fh =? aspect)%float = false).
Proof.
  cbv zeta. repeat split; try reflexivity.
  - eexists. eexists. split; [reflexivity|]. repeat split; reflexivity.
  - eexists. eexists. split; reflexivity.
Qed.

(** C5, amended.  In binary64, for a positive table width W, a pixel
    height above zero and aspect = wPx / hPx: when aspect * h is at most
    W, the barcode of both scripts is (aspect * h, h); when aspect * h
    exceeds W, its width is W * 0.98 and its height that width divided by
    aspect, a division that cannot fail.  Nothing is said of the quotient
    of the two rounded numbers. *)
Theorem barcode_fit_binary64 (h W : float) (wPx hPx : Z) :
  (0 <= wPx < 2 ^ 53)%Z -> (0 < hPx < 2 ^ 53)%Z -> (0 <? W)%float = true ->
  let aspect := (Binary64.of_px wPx / Binary64.of_px hPx)%float in
  let fits (size : float -> float -> Z -> Z -> option (float * float)) :=
    ((aspect * h <=? W)%float = true ->
     size h W wPx hPx = Some ((aspect * h)%float, h))
    /\ ((W <? aspect * h)%float = true ->
        size h W wPx hPx
        = Some ((W * 0.98)%float, (W * 0.98 / aspect)%float)) in
  fits App64.final_barcode_size /\ fits Bill64.final_barcode_size.
Proof.
  intros _ _ HW aspect fits. subst aspect fits. cbv beta.
  repeat split; intro H;
    (apply fit_within; [tauto | apply leb_not_gt, H])
    || (apply fit_rescaled; [tauto | exact HW | exact H]).
Qed.

Lemma barcode_fit_binary64_witness :
  App64.final_barcode_size 50 80 200 100
  = Some ((80 * 0.98)%float,
          (80 * 0.98 / (Binary64.of_px 200 / Binary64.of_px 100))%float).
Proof.
  refine (proj2 (proj1 (barcode_fit_binary64 50 80 200 100 _ _ _)) _);
    reflexivity || (split; reflexivity) || (split; [discriminate | reflexivity]).
Defined.

(** The scenario of section 8: 200 x 100 pixels planned at 50 points give
    100 points of width, and in a table of 80 points 78.4 by 39.2. *)
Example barcode_fit_scenario :
  App64.final_barcode_size 50 100 200 100 = Some (100%float, 50%float)
  /\ App64.final_barcode_size 50 80 200 100
     = Some (78.4%float, 39.2%float).
Proof. split; reflexivity. Qed.

(** ** The key/value record *)

Section Dict.

Lemma str_eqb_eq (a b : pystr) : str_eqb a b = true <-> a = b.
Proof.
  unfold str_eqb. destruct (list_eq_dec N.eq_dec a b); split; congruence.
Qed.

Lemma str_eqb_neq (a b : pystr) : str_eqb a b = false <-> a <> b.
Proof.
  unfold str_eqb. destruct (list_eq_dec N.eq_dec a b); split; congruence.
Qed.

Lemma str_eqb_refl (a : pystr) : str_eqb a a = true.
Proof. apply str_eqb_eq. reflexivity. Qed.

Lemma get_setitem_same (d : dict) (k v : pystr) :
  get (setitem d k v) k = Some v.
Proof.
  induction d as [|[k' v'] r IH]; simpl.
  - rewrite str_eqb_refl. reflexivity.
  - destruct (str_eqb k' k) eqn:E; simpl; rewrite E; [reflexivity | exact IH].
Qed.

Lemma get_setitem_other (d : dict) (k v k0 : pystr) :
  k <> k0 -> get (setitem d k v) k0 = get d k0.
Proof.
  intro N0. induction d as [|[k' v'] r IH]; simpl.
  - apply str_eqb_neq in N0. rewrite N0. reflexivity.
  - destruct (str_eqb k' k) eqn:E; simpl.
    + apply str_eqb_eq in E. subst k'.
      apply str_eqb_neq in N0. rewrite N0. reflexivity.
    + destruct (str_eqb k' k0); [reflexivity | exact IH].
Qed.

(** Assigning to a key that is present leaves the keys and their order
    alone; a new key goes to the end. *)
Lemma keys_setitem_present (d : dict) (k v : pystr) :
  In k (keys d) -> keys (setitem d k v) = keys d.
Proof.
  induction d as [|[k' v'] r IH]; simpl; [tauto|].
  intros [-> | H].
  - rewrite str_eqb_refl. reflexivity.
  - destruct (str_eqb k' k); simpl; [reflexivity|]. f_equal. apply IH, H.
Qed.

Lemma keys_setitem_absent (d : dict) (k v : pystr) :
  ~ In k (keys d) -> setitem d k v = d ++ [(k, v)].
Proof.
  induction d as [|[k' v'] r IH]; simpl; [reflexivity|].
  intro H. destruct (str_eqb k' k) eqn:E.
  - apply str_eqb_eq in E. tauto.
  - f_equal. apply IH. tauto.
Qed.

Lemma keys_setitem_nodup (d : dict) (k v : pystr) :
  NoDup (keys d) -> NoDup (keys (setitem d k v)).
Proof.
  intro H. destruct (in_dec (list_eq_dec N.eq_dec) k (keys d)) as [I | I].
  - rewrite keys_setitem_present; assumption.
  - rewrite keys_setitem_absent by assumption.
    unfold keys. rewrite map_app. simpl.
    apply NoDup_app; [exact H | repeat constructor; simpl; tauto |].
    intros x Hx [<- | []]. exact (I Hx).
Qed.

Lemma get_present (d : dict) (k : pystr) :
  In k (keys d) <-> exists v, get d k = Some v.
Proof.
  induction d as [|[k' v'] r IH]; simpl.
  - split; [tauto | intros [v H]; discriminate].
  - destruct (str_eqb k' k) eqn:E.
    + apply str_eqb_eq in E. split; [eauto | tauto].
    + apply str_eqb_neq in E. rewrite <- IH. tauto.
Qed.

Lemma app_read_row_entry (d : dict) (row : list pystr) :
  App.read_row d row
  = match Spec.row_entry row with
    | Some (k, v) => setitem d k v
    | None => d
    end.
Proof. destruct row as [|c [|c' r]]; reflexivity. Qed.

Lemma bill_read_row (d : dict) (row : list pystr) :
  Bill.read_row d row = App.read_row d row.
Proof. reflexivity. Qed.

Lemma bill_read_rows (rows : list (list pystr)) :
  Bill.read_rows rows = App.read_rows rows.
Proof. reflexivity. Qed.

Lemma fold_read_row_get (rows : list (list pystr)) (d : dict) (k : pystr) :
  get (fold_left App.read_row rows d) k
  = match Spec.last_value k rows with
    | Some v => Some v
    | None => get d k
    end.
Proof.
  revert d. induction rows as [|row later IH]; intro d; simpl; [reflexivity|].
  rewrite IH. destruct (Spec.last_value k later); [reflexivity|].
  rewrite app_read_row_entry.
  destruct (Spec.row_entry row) as [[k' v]|]; [|reflexivity].
  destruct (str_eqb k' k) eqn:E.
  - apply str_eqb_eq in E. subst. apply get_setitem_same.
  - apply str_eqb_neq in E. apply get_setitem_other, E.
Qed.

Lemma fold_read_row_nodup (rows : list (list pystr)) (d : dict) :
  NoDup (keys d) -> NoDup (keys (fold_left App.read_row rows d)).
Proof.
  revert d. induction rows as [|row later IH]; intros d H; simpl; [exact H|].
  apply IH. rewrite app_read_row_entry.
  destruct (Spec.row_entry row) as [[k v]|]; [|exact H].
  apply keys_setitem_nodup, H.
Qed.

Lemma read_rows_snoc (rows : list (list pystr)) (row : list pystr) :
  App.read_rows (rows ++ [row]) = App.read_row (App.read_rows rows) row.
Proof. unfold App.read_rows. rewrite fold_left_app. reflexivity. Qed.

End Dict.

(** C6.  The rows [["A","1"],["A","2"]] give the record with the single
    entry "A" -> "2".  For every sequence of rows no key occurs twice in
    the record and each key carries the value of its last row; a row
    whose key is already present changes that value and leaves the keys,
    their number and their order as they were.  In both scripts. *)
Theorem duplicate_keys_overwrite :
  let overwrites (read_rows : list (list pystr) -> dict) :=
    read_rows [[str "A"; str "1"]; [str "A"; str "2"]] = [(str "A", str "2")]
    /\ (forall rows,
          NoDup (keys (read_rows rows))
          /\ forall k, get (read_rows rows) k = Spec.last_value k rows)
    /\ (forall rows row k v,
          Spec.row_entry row = Some (k, v) ->
          In k (keys (read_rows rows)) ->
          keys (read_rows (rows ++ [row])) = keys (read_rows rows)
          /\ get (read_rows (rows ++ [row])) k = Some v) in
  overwrites App.read_rows /\ overwrites Bill.read_rows.
Proof.
  assert (A : forall rows row k v,
             Spec.row_entry row = Some (k, v) ->
             In k (keys (App.read_rows rows)) ->
             keys (App.read_rows (rows ++ [row])) = keys (App.read_rows rows)
             /\ get (App.read_rows (rows ++ [row])) k = Some v).
  { intros rows row k v E I. rewrite read_rows_snoc, app_read_row_entry, E.
    split; [apply keys_setitem_present, I | apply get_setitem_same]. }
  assert (B : forall rows,
             NoDup (keys (App.read_rows rows))
             /\ forall k, get (App.read_rows rows) k = Spec.last_value k rows).
  { intro rows. split.
    - apply fold_read_row_nodup. constructor.
    - intro k. unfold App.read_rows. rewrite fold_read_row_get.
      destruct (Spec.last_value k rows); reflexivity. }
  cbv zeta beta. split; (split; [reflexivity | split; [exact B | exact A]]).
Qed.

Lemma duplicate_keys_overwrite_witness :
  keys (Bill.read_rows ([[str "A"; str "1"]] ++ [[str " A"; str "2"; str "3"]]))
  = keys (Bill.read_rows [[str "A"; str "1"]])
  /\ get (Bill.read_rows ([[str "A"; str "1"]] ++ [[str " A"; str "2"; str "3"]]))
       (str "A") = Some (str "2,3").
Proof.
  refine (proj2 (proj2 (proj2 duplicate_keys_overwrite))
            [[str "A"; str "1"]] [str " A"; str "2"; str "3"]
            (str "A") (str "2,3") _ _).
  - reflexivity.
  - vm_compute. left. reflexivity.
Defined.


(** ** Reading the barcode image *)

(** C8.  Whether the barcode row is appended depends on nothing but what
    PIL reports when it opens the file.  When PIL raises or reports a
    pixel height of zero, both scripts leave the row out.  When the file
    opens with a positive pixel height, both scripts append the row,
    whatever the pixel data behind the header: a file that opens but
    cannot be decoded is handed on to [doc.build], outside the [try]. *)
Theorem opened_barcode_is_appended (pil_size : list N -> option (Z * Z))
  (bytes : list N) (t W : float) :
  (0 <? W)%float = true ->
  ((pil_size bytes = None \/ exists w, pil_size bytes = Some (w, 0%Z)) ->
   (forall name,
       App64.barcode_row pil_size
         (Some {| filename := name; content := bytes |}) t W = None)
   /\ Bill64.barcode_row pil_size (Some bytes) t W = None)
  /\ (forall w h,
         pil_size bytes = Some (w, h) -> (0 <= w)%Z -> (0 < h)%Z ->
         (forall name,
             name <> [] ->
             exists fw fh,
               App64.barcode_row pil_size
                 (Some {| filename := name; content := bytes |}) t W
               = Some [Image fw fh; Plain []])
         /\ exists fw fh,
             Bill64.barcode_row pil_size (Some bytes) t W
             = Some [Image fw fh; Plain []]).
Proof.
  intro HW. split.
  - intros [E | [w E]]; split; try intro name;
      unfold App64.barcode_row, Bill64.barcode_row; simpl; rewrite E;
      try reflexivity; destruct name; reflexivity.
  - intros w h E Hw Hh. split.
    + intros name Hname.
      destruct (fit_defined App64.final_barcode_size t W w h
                  (or_introl eq_refl) HW) as [fw [fh F]].
      exists fw, fh. unfold App64.barcode_row. simpl.
      destruct name; [congruence|]. rewrite E.
      apply Z.ltb_lt in Hh. rewrite Hh, F. reflexivity.
    + destruct (fit_defined Bill64.final_barcode_size t W w h
                  (or_intror eq_refl) HW) as [fw [fh F]].
      exists fw, fh. unfold Bill64.barcode_row. rewrite E.
      assert (Z0 : (h =? 0)%Z = false) by (apply Z.eqb_neq; lia).
      rewrite Z0, F. reflexivity.
Qed.

(** A file of 200 by 100 pixels that ends after its header. *)
Lemma opened_barcode_is_appended_witness :
  exists fw fh,
    App64.barcode_row Demo.image_size
      (Some {| filename := str "barcode.png"; content := [200; 100]%N |})
      50 (9.0 * Binary64.cm)
    = Some [Image fw fh; Plain []].
Proof.
  refine (proj1 (proj2 (opened_barcode_is_appended Demo.image_size
                          [200; 100]%N 50 (9.0 * Binary64.cm) _)
                   200%Z 100%Z _ _ _) (str "barcode.png") _).
  - reflexivity.
  - reflexivity.
  - discriminate.
  - reflexivity.
  - discriminate.
Defined.

(** ** The sanitizer *)

Section Sanitizer.


Lemma space_is_space : is_space SPACE = true.
Proof. reflexivity. Qed.

Lemma space_is_kept : App.removed SPACE = false.
Proof. reflexivity. Qed.

(** *** What survives the two substitutions *)

Lemma lstrip_kept (s : pystr) : Forall Spec.kept s -> Forall Spec.kept (lstrip s).
Proof.
  induction 1 as [|c r Hc Hr IH]; simpl; [constructor|].
  destruct (is_space c); [exact IH | constructor; assumption].
Qed.

Lemma rstrip_kept (s : pystr) : Forall Spec.kept s -> Forall Spec.kept (rstrip s).
Proof.
  induction 1 as [|c r Hc Hr IH]; simpl; [constructor|].
  destruct (rstrip r) as [|x xs].
  - destruct (is_space c); repeat constructor. exact Hc.
  - constructor; assumption.
Qed.

Lemma strip_kept (s : pystr) : Forall Spec.kept s -> Forall Spec.kept (strip s).
Proof. intro H. apply rstrip_kept, lstrip_kept, H. Qed.

Lemma re_sub_class_kept (s : pystr) : Forall Spec.kept (re_sub_class App.removed s).
Proof.
  apply Forall_forall. intros c H. apply filter_In in H.
  destruct H as [_ H]. apply negb_true_iff in H. exact H.
Qed.

Lemma re_sub_class_nothing (s : pystr) :
  Forall Spec.kept s -> re_sub_class App.removed s = s.
Proof.
  induction 1 as [|c r Hc Hr IH]; simpl; [reflexivity|].
  rewrite Hc. simpl. f_equal. exact IH.
Qed.

Lemma squeeze_kept (b : bool) (s : pystr) :
  Forall Spec.kept s -> Forall Spec.kept (re_sub_spaces [SPACE] b s).
Proof.
  intro H. revert b. induction H as [|c r Hc Hr IH]; intro b; simpl;
    [constructor|].
  destruct (is_space c).
  - destruct b; [apply IH|]. simpl. constructor; [exact space_is_kept | apply IH].
  - constructor; [exact Hc | apply IH].
Qed.

Lemma clean_text_kept (s : pystr) : Forall Spec.kept (App.clean_text s).
Proof. apply squeeze_kept, re_sub_class_kept. Qed.

(** *** White space after the second substitution *)

Lemma single_spaced_weaken (s : pystr) :
  Spec.single_spaced true s = true -> Spec.single_spaced false s = true.
Proof.
  destruct s as [|c r]; simpl; [reflexivity|].
  destruct (is_space c); [|tauto].
  rewrite andb_false_r. discriminate.
Qed.

Lemma squeeze_single_spaced (b : bool) (s : pystr) :
  Spec.single_spaced b (re_sub_spaces [SPACE] b s) = true.
Proof.
  revert b. induction s as [|c r IH]; intro b; simpl; [reflexivity|].
  destruct (is_space c) eqn:E.
  - destruct b; [apply IH|]. simpl. apply IH.
  - simpl. rewrite E. apply IH.
Qed.

Lemma squeeze_nothing (b : bool) (s : pystr) :
  Spec.single_spaced b s = true -> re_sub_spaces [SPACE] b s = s.
Proof.
  revert b. induction s as [|c r IH]; intro b; simpl; [reflexivity|].
  destruct (is_space c).
  - intro H. apply andb_prop in H. destruct H as [H Hr].
    apply andb_prop in H. destruct H as [Hc Hb].
    apply N.eqb_eq in Hc. apply negb_true_iff in Hb. subst b c.
    simpl. f_equal. apply IH, Hr.
  - intro H. f_equal. apply IH, H.
Qed.

Lemma lstrip_single_spaced (b : bool) (s : pystr) :
  Spec.single_spaced b s = true -> Spec.single_spaced false (lstrip s) = true.
Proof.
  revert b. induction s as [|c r IH]; intro b; simpl; [reflexivity|].
  destruct (is_space c) eqn:E.
  - intro H. apply andb_prop in H. destruct H as [_ Hr]. apply (IH true Hr).
  - intro H. simpl. rewrite E. exact H.
Qed.

Lemma rstrip_single_spaced (b : bool) (s : pystr) :
  Spec.single_spaced b s = true -> Spec.single_spaced b (rstrip s) = true.
Proof.
  revert b. induction s as [|c r IH]; intro b; simpl; [reflexivity|].
  intro H. destruct (rstrip r) as [|x xs] eqn:R.
  - destruct (is_space c) eqn:E; simpl; [reflexivity|]. rewrite E. reflexivity.
  - destruct (is_space c) eqn:E.
    + apply andb_prop in H. destruct H as [H Hr].
      change (Spec.single_spaced b (c :: x :: xs))
        with (if is_space c
              then (N.eqb c SPACE && negb b
                    && Spec.single_spaced true (x :: xs))%bool
              else Spec.single_spaced false (x :: xs)).
      rewrite E, H. apply (IH true Hr).
    + change (Spec.single_spaced b (c :: x :: xs))
        with (if is_space c
              then (N.eqb c SPACE && negb b
                    && Spec.single_spaced true (x :: xs))%bool
              else Spec.single_spaced false (x :: xs)).
      rewrite E. apply (IH false H).
Qed.

(** *** Strings without white space at either end *)

Lemma lstrip_starts_clean (s : pystr) : Spec.starts_clean (lstrip s) = true.
Proof.
  induction s as [|c r IH]; simpl; [reflexivity|].
  destruct (is_space c) eqn:E; [exact IH|]. simpl. rewrite E. reflexivity.
Qed.

Lemma lstrip_nothing (s : pystr) : Spec.starts_clean s = true -> lstrip s = s.
Proof.
  destruct s as [|c r]; simpl; [reflexivity|].
  destruct (is_space c); [discriminate | reflexivity].
Qed.

Lemma rstrip_starts_clean (s : pystr) :
  Spec.starts_clean s = true -> Spec.starts_clean (rstrip s) = true.
Proof.
  destruct s as [|c r]; simpl; [reflexivity|].
  destruct (is_space c) eqn:E; [discriminate|]. intros _.
  destruct (rstrip r); simpl; rewrite E; reflexivity.
Qed.

Lemma rstrip_ends_clean (s : pystr) : Spec.ends_clean (rstrip s) = true.
Proof.
  induction s as [|c r IH]; simpl; [reflexivity|].
  destruct (rstrip r) as [|x xs].
  - destruct (is_space c) eqn:E; simpl; [reflexivity|]. rewrite E. reflexivity.
  - exact IH.
Qed.

Lemma rstrip_nothing (s : pystr) : Spec.ends_clean s = true -> rstrip s = s.
Proof.
  induction s as [|c r IH]; [reflexivity|].
  destruct r as [|x xs].
  - simpl. destruct (is_space c); [discriminate | reflexivity].
  - intro H. change (Spec.ends_clean (c :: x :: xs))
      with (Spec.ends_clean (x :: xs)) in H.
    change (rstrip (c :: x :: xs))
      with (match rstrip (x :: xs) with
            | [] => if is_space c then [] else [c]
            | r' => c :: r'
            end).
    rewrite (IH H). reflexivity.
Qed.

Lemma squeeze_starts_clean (s : pystr) :
  Spec.starts_clean s = true -> Spec.starts_clean (re_sub_spaces [SPACE] false s) = true.
Proof.
  destruct s as [|c r]; simpl; [reflexivity|].
  destruct (is_space c) eqn:E; [discriminate|]. simpl. rewrite E. reflexivity.
Qed.

Lemma squeeze_nonempty (b : bool) (s : pystr) :
  Spec.ends_clean s = true -> s <> [] -> re_sub_spaces [SPACE] b s <> [].
Proof.
  revert b. induction s as [|c r IH]; intros b H N0; [congruence|].
  destruct r as [|x xs].
  - simpl in *. destruct (is_space c); [discriminate | discriminate].
  - assert (T : forall b', re_sub_spaces [SPACE] b' (x :: xs) <> []).
    { intro b'. apply IH; [exact H | discriminate]. }
    change (re_sub_spaces [SPACE] b (c :: x :: xs))
      with (if is_space c
            then (if b then re_sub_spaces [SPACE] true (x :: xs)
                  else [SPACE] ++ re_sub_spaces [SPACE] true (x :: xs))
            else c :: re_sub_spaces [SPACE] false (x :: xs)).
    destruct (is_space c); [destruct b|]; try discriminate. apply T.
Qed.

Lemma ends_clean_cons (c : N) (s : pystr) :
  s <> [] -> Spec.ends_clean (c :: s) = Spec.ends_clean s.
Proof. destruct s; [congruence | reflexivity]. Qed.

Lemma squeeze_ends_clean (b : bool) (s : pystr) :
  Spec.ends_clean s = true -> Spec.ends_clean (re_sub_spaces [SPACE] b s) = true.
Proof.
  revert b. induction s as [|c r IH]; intros b H; [reflexivity|].
  destruct r as [|x xs].
  - simpl in *. destruct (is_space c) eqn:E; [discriminate|].
    simpl. rewrite E. reflexivity.
  - assert (T : forall b', re_sub_spaces [SPACE] b' (x :: xs) <> []).
    { intro b'. apply squeeze_nonempty; [exact H | discriminate]. }
    change (re_sub_spaces [SPACE] b (c :: x :: xs))
      with (if is_space c
            then (if b then re_sub_spaces [SPACE] true (x :: xs)
                  else SPACE :: re_sub_spaces [SPACE] true (x :: xs))
            else c :: re_sub_spaces [SPACE] false (x :: xs)).
    destruct (is_space c); [destruct b|];
      try rewrite ends_clean_cons by apply T; apply IH, H.
Qed.

(** *** Sanitizing twice *)

Lemma clean_text_again (s : pystr) :
  App.clean_text (App.clean_text s) = strip (App.clean_text s).
Proof.
  set (c := App.clean_text s).
  assert (K : Forall Spec.kept (strip c)) by apply strip_kept, clean_text_kept.
  assert (S1 : Spec.single_spaced false (strip c) = true).
  { apply rstrip_single_spaced, (lstrip_single_spaced false).
    apply squeeze_single_spaced. }
  unfold App.clean_text at 1. cbv zeta.
  rewrite (re_sub_class_nothing _ K). apply squeeze_nothing, S1.
Qed.

Lemma clean_text_trimmed (s : pystr) :
  Forall Spec.kept s -> strip (App.clean_text s) = App.clean_text s.
Proof.
  intro K. unfold App.clean_text. cbv zeta.
  rewrite (re_sub_class_nothing _ (strip_kept s K)).
  assert (A : Spec.starts_clean (strip s) = true)
    by apply rstrip_starts_clean, lstrip_starts_clean.
  assert (B : Spec.ends_clean (strip s) = true) by apply rstrip_ends_clean.
  unfold strip at 1.
  rewrite (lstrip_nothing _ (squeeze_starts_clean _ A)).
  apply rstrip_nothing, squeeze_ends_clean, B.
Qed.

End Sanitizer.

(** C9, as stated, fails: U+0001, a space and "a" are sanitized to " a",
    and " a" is sanitized to "a".  The same holds in both scripts. *)
Lemma clean_text_not_idempotent :
  App.clean_text (1%N :: str " a") = str " a" /\
  App.clean_text (App.clean_text (1%N :: str " a")) = str "a" /\
  App.clean_text (App.clean_text (1%N :: str " a"))
  <> App.clean_text (1%N :: str " a") /\
  Bill.clean_text (Bill.clean_text (1%N :: str " a"))
  <> Bill.clean_text (1%N :: str " a").
Proof.
  repeat split; try reflexivity; vm_compute; discriminate.
Qed.

(** C9, amended.  Sanitizing a sanitized string only trims it:
    [clean_text (clean_text s) = strip (clean_text s)]; and when [s] holds
    none of the characters that the first substitution deletes, nothing
    is left to trim: [clean_text (clean_text s) = clean_text s].  In both
    scripts. *)
Theorem clean_text_twice (s : pystr) :
  let twice (clean_text : pystr -> pystr) (removed : N -> bool) :=
    clean_text (clean_text s) = strip (clean_text s)
    /\ (Forall (fun c => removed c = false) s ->
        clean_text (clean_text s) = clean_text s) in
  twice App.clean_text App.removed /\ twice Bill.clean_text Bill.removed.
Proof.
  assert (T : App.clean_text (App.clean_text s) = strip (App.clean_text s)
              /\ (Forall (fun c => App.removed c = false) s ->
                  App.clean_text (App.clean_text s) = App.clean_text s)).
  { split; [apply clean_text_again|].
    intro K. rewrite clean_text_again. apply clean_text_trimmed, K. }
  cbv zeta beta. split; exact T.
Qed.

Lemma clean_text_twice_witness :
  Bill.clean_text (Bill.clean_text (str "  Net   Wt "))
  = Bill.clean_text (str "  Net   Wt ").
Proof.
  refine (proj2 (proj2 (clean_text_twice (str "  Net   Wt "))) _).
  repeat constructor.
Defined.

(** ** The two entry scripts *)

(** C10.  The helpers that both scripts define agree on every input: the
    font size of every area, or of none, and the sanitized form of every
    string. *)
Theorem entry_scripts_agree :
  (forall area_cm2 : option Q,
      App.get_font_size_pt area_cm2 = Bill.get_font_size_pt area_cm2)
  /\ (forall text : pystr, App.clean_text text = Bill.clean_text text).
Proof.
  split.
  - intros [a|]; reflexivity.
  - intro text. unfold App.clean_text, Bill.clean_text.
    replace (re_sub_class Bill.removed (strip text))
      with (re_sub_class App.removed (strip text)); [reflexivity|].
    unfold re_sub_class. apply filter_ext. intro c. reflexivity.
Qed.

(** * Further properties of the scripts *)

(** ** Font size and table width *)

(** X1.  In both scripts the font size never shrinks when the area grows,
    it is one of 8, 9, 10, 16 and 24, and a missing area gets the smallest
    of them. *)
Theorem font_size_monotone (a b : Q) :
  a <= b ->
  let grows (f : option Q -> Z) :=
    (f None <= f (Some a) <= f (Some b))%Z
    /\ In (f (Some a)) [8; 9; 10; 16; 24]%Z in
  grows App.get_font_size_pt /\ grows Bill.get_font_size_pt.
Proof.
  intro H. cbv zeta beta.
  unfold App.get_font_size_pt, Bill.get_font_size_pt.
  by_cases; try (exfalso; lra); simpl; repeat split; try lia; tauto.
Qed.

Lemma font_size_monotone_witness :
  (App.get_font_size_pt None <= App.get_font_size_pt (Some 60%Q)
   <= App.get_font_size_pt (Some 600%Q))%Z
  /\ In (App.get_font_size_pt (Some 60)) [8; 9; 10; 16; 24]%Z.
Proof.
  refine (proj1 (font_size_monotone 60 600 _)). vm_compute. discriminate.
Defined.

(** X2.  For every positive smaller side, the table width of both scripts
    is positive, below the A4 width as the scripts compute it, and at most
    that width minus 1, which is 20.000000000000004 cm. *)
Theorem table_width_fits_page (smallest_side : Q) :
  0 < smallest_side ->
  let fits (width a4 : Q) :=
    0 < width /\ width < a4 /\ width <= a4 - 1
    /\ a4 - 1 == Binary64.to_Q 20.000000000000004%float in
  fits (App.total_table_width_cm smallest_side) App.a4_page_width_cm
  /\ fits (Bill.total_table_width_cm smallest_side) Bill.a4_page_width_cm.
Proof.
  intros _. cbv zeta beta.
  pose proof (proj1 a4_exact) as A. pose proof (proj2 a4_exact) as B.
  assert (T : Binary64.to_Q 20.000000000000004%float
              == 20 + (1 # 281474976710656)) by (vm_compute; reflexivity).
  rewrite T.
  unfold App.total_table_width_cm, Bill.total_table_width_cm.
  by_cases; repeat split; lra.
Qed.

Lemma table_width_fits_page_witness :
  0 < App.total_table_width_cm 30
  /\ App.total_table_width_cm 30 < App.a4_page_width_cm
  /\ App.total_table_width_cm 30 <= App.a4_page_width_cm - 1
  /\ App.a4_page_width_cm - 1 == Binary64.to_Q 20.000000000000004%float.
Proof.
  refine (proj1 (table_width_fits_page 30 _)). reflexivity.
Defined.

(** ** The barcode height planner, for all inputs *)

Lemma seventh (h : Q) : h / 7 == h * (1 # 7).
Proof. reflexivity. Qed.

(** X5.  In both scripts the planned barcode height lies between the
    smaller and the larger of one seventh of the table height and the
    0.5 cm minimum; so a table of positive height always gets a barcode of
    positive height. *)
Theorem planned_height_bounds (h s : Q) :
  let bounded (target : Q -> Q -> Q) (low : Q) :=
    Qmin (h / 7) low <= target h s
    /\ target h s <= Qmax (h / 7) low
    /\ (0 < h -> 0 < target h s) in
  bounded App.target_barcode_height App.MIN_BARCODE_IMAGE_HEIGHT
  /\ bounded Bill.target_barcode_height Bill.MIN_BARCODE_IMAGE_HEIGHT.
Proof.
  cbv zeta beta.
  assert (M : 0 < App.MIN_BARCODE_IMAGE_HEIGHT) by reflexivity.
  assert (P : 0 < App.TOTAL_ROW_PADDING) by reflexivity.
  change Bill.MIN_BARCODE_IMAGE_HEIGHT with App.MIN_BARCODE_IMAGE_HEIGHT.
  unfold App.target_barcode_height, Bill.target_barcode_height.
  change Bill.MIN_BARCODE_IMAGE_HEIGHT with App.MIN_BARCODE_IMAGE_HEIGHT.
  change Bill.TOTAL_ROW_PADDING with App.TOTAL_ROW_PADDING.
  generalize dependent App.MIN_BARCODE_IMAGE_HEIGHT.
  generalize dependent App.TOTAL_ROW_PADDING.
  generalize cm as c. intros c pad P low M.
  pose proof (seventh h) as S7.
  destruct (Q.min_spec (h / 7) low) as [[L1 L2] | [L1 L2]];
    destruct (Q.max_spec (h / 7) low) as [[U1 U2] | [U1 U2]];
    rewrite L2, U2; by_cases; plain_sevenths; repeat split; intros; lra.
Qed.

Lemma planned_height_bounds_witness : 0 < App.target_barcode_height 70 10.
Proof.
  refine (proj2 (proj2 (proj1 (planned_height_bounds 70 10))) _).
  reflexivity.
Defined.



(** ** The barcode fitter, for all inputs *)



(** ** The record, for all rows *)

Lemma strip_idempotent (s : pystr) : strip (strip s) = strip s.
Proof.
  assert (A : Spec.starts_clean (strip s) = true)
    by apply rstrip_starts_clean, lstrip_starts_clean.
  assert (B : Spec.ends_clean (strip s) = true) by apply rstrip_ends_clean.
  unfold strip at 1. rewrite (lstrip_nothing _ A). apply rstrip_nothing, B.
Qed.

Lemma row_entry_trimmed (row : list pystr) (k v : pystr) :
  Spec.row_entry row = Some (k, v) -> Spec.trimmed_entry (k, v).
Proof.
  destruct row as [|c [|c' r]]; intro E; inversion E; subst; split; simpl;
    try apply strip_idempotent; reflexivity.
Qed.

Lemma setitem_trimmed (d : dict) (k v : pystr) :
  Forall Spec.trimmed_entry d -> Spec.trimmed_entry (k, v) ->
  Forall Spec.trimmed_entry (setitem d k v).
Proof.
  intros H T. induction H as [|[k' v'] r Hkv Hr IH]; simpl.
  - repeat constructor; apply T.
  - destruct (str_eqb k' k).
    + constructor; [|exact Hr]. split; [apply Hkv | apply T].
    + constructor; assumption.
Qed.

Lemma fold_read_row_trimmed (rows : list (list pystr)) (d : dict) :
  Forall Spec.trimmed_entry d -> Forall Spec.trimmed_entry (fold_left App.read_row rows d).
Proof.
  revert d. induction rows as [|row later IH]; intros d H; simpl; [exact H|].
  apply IH. rewrite app_read_row_entry.
  destruct (Spec.row_entry row) as [[k v]|] eqn:E; [|exact H].
  apply setitem_trimmed; [exact H | apply (row_entry_trimmed row), E].
Qed.

(** X13.  Every key and every value of the record that either script
    reads from the rows is trimmed: stripping it again changes nothing. *)
Theorem record_is_trimmed (rows : list (list pystr)) (k v : pystr) :
  (In (k, v) (App.read_rows rows) -> strip k = k /\ strip v = v)
  /\ (In (k, v) (Bill.read_rows rows) -> strip k = k /\ strip v = v).
Proof.
  assert (T : Forall Spec.trimmed_entry (App.read_rows rows))
    by (apply fold_read_row_trimmed; constructor).
  split; intro I; exact (proj1 (Forall_forall _ _) T (k, v) I).
Qed.

Lemma record_is_trimmed_witness :
  strip (str "Net Wt") = str "Net Wt" /\ strip (str "1, 2 kg") = str "1, 2 kg".
Proof.
  refine (proj1 (record_is_trimmed
                   [[str "  Net Wt "; str " 1"; str " 2 kg "]]
                   (str "Net Wt") (str "1, 2 kg")) _).
  left. reflexivity.
Defined.

Lemma mentions_in (ks : list pystr) (k : pystr) :
  Spec.mentions ks k = true <-> In k ks.
Proof.
  unfold Spec.mentions. rewrite existsb_exists. split.
  - intros [x [I E]]. apply str_eqb_eq in E. subst. exact I.
  - intro I. exists k. split; [exact I | apply str_eqb_refl].
Qed.

Lemma mentions_app (ks : list pystr) (k x : pystr) :
  Spec.mentions (ks ++ [k]) x = (Spec.mentions ks x || str_eqb k x)%bool.
Proof.
  unfold Spec.mentions. rewrite existsb_app. simpl.
  rewrite orb_false_r. reflexivity.
Qed.

Lemma filter_twice {A : Type} (p q : A -> bool) (l : list A) :
  List.filter p (List.filter q l) = List.filter (fun x => q x && p x)%bool l.
Proof.
  induction l as [|x r IH]; simpl; [reflexivity|].
  destruct (q x); simpl; [destruct (p x)|]; rewrite IH; reflexivity.
Qed.

Lemma filter_all {A : Type} (p : A -> bool) (l : list A) :
  (forall x, p x = true) -> List.filter p l = l.
Proof.
  intro H. induction l as [|x r IH]; simpl; [reflexivity|].
  rewrite H, IH. reflexivity.
Qed.

Lemma fold_read_row_keys (rows : list (list pystr)) (d : dict) :
  keys (fold_left App.read_row rows d)
  = keys d
    ++ List.filter (fun x => negb (Spec.mentions (keys d) x))
         (Spec.first_seen (Spec.row_keys rows)).
Proof.
  revert d. induction rows as [|row later IH]; intro d; simpl.
  - rewrite app_nil_r. reflexivity.
  - rewrite IH, app_read_row_entry.
    destruct (Spec.row_entry row) as [[k v]|]; [|reflexivity].
    simpl. rewrite filter_twice.
    destruct (Spec.mentions (keys d) k) eqn:M; simpl.
    + rewrite keys_setitem_present by (apply mentions_in, M).
      f_equal. apply filter_ext. intro x.
      destruct (str_eqb k x) eqn:E; [|reflexivity].
      apply str_eqb_eq in E. subst x. rewrite M. reflexivity.
    + assert (A : ~ In k (keys d)).
      { intro I. apply mentions_in in I. congruence. }
      rewrite (keys_setitem_absent d k v A).
      unfold keys at 1 2. rewrite map_app. simpl. fold (keys d).
      rewrite <- app_assoc. simpl. do 2 f_equal.
      apply filter_ext. intro x. rewrite mentions_app.
      destruct (Spec.mentions (keys d) x), (str_eqb k x); reflexivity.
Qed.

Lemma app_read_rows_keys (rows : list (list pystr)) :
  keys (App.read_rows rows) = Spec.first_seen (Spec.row_keys rows).
Proof.
  unfold App.read_rows. rewrite fold_read_row_keys. simpl.
  apply filter_all. reflexivity.
Qed.

(** X14.  The keys of the record stand in the order in which the rows
    first mention them, each once: a later row with a known key never
    moves it.  In both scripts. *)
Theorem record_keeps_first_order (rows : list (list pystr)) :
  keys (App.read_rows rows) = Spec.first_seen (Spec.row_keys rows)
  /\ keys (Bill.read_rows rows) = Spec.first_seen (Spec.row_keys rows).
Proof.
  split; apply app_read_rows_keys.
Qed.

(** ** The sanitizer, for all strings *)

Lemma lstrip_shorter (s : pystr) :
  (List.length (lstrip s) <= List.length s)%nat /\ incl (lstrip s) s.
Proof.
  induction s as [|c r [L I]]; simpl; [split; [lia | apply incl_refl]|].
  destruct (is_space c).
  - split; [lia | apply incl_tl, I].
  - split; [simpl; lia | apply incl_refl].
Qed.

Lemma rstrip_shorter (s : pystr) :
  (List.length (rstrip s) <= List.length s)%nat /\ incl (rstrip s) s.
Proof.
  induction s as [|c r [L I]]; simpl; [split; [lia | apply incl_refl]|].
  destruct (rstrip r) as [|x xs].
  - destruct (is_space c); simpl; split; try lia.
    + apply incl_nil_l.
    + intros y [<- | []]. left. reflexivity.
  - simpl in *. split; [lia|].
    intros y [<- | Hy]; [left; reflexivity | right; apply I, Hy].
Qed.

Lemma squeeze_shorter (b : bool) (s : pystr) :
  (List.length (re_sub_spaces [SPACE] b s) <= List.length s)%nat
  /\ Forall (fun c => In c s \/ c = SPACE) (re_sub_spaces [SPACE] b s).
Proof.
  revert b. induction s as [|c r IH]; intro b; simpl;
    [split; [lia | constructor]|].
  assert (W : forall l, Forall (fun x => In x r \/ x = SPACE) l ->
                        Forall (fun x => (c = x \/ In x r) \/ x = SPACE) l).
  { intros l H. eapply Forall_impl; [|exact H]. simpl. tauto. }
  destruct (is_space c).
  - destruct b.
    + destruct (IH true) as [L F]. split; [lia | apply W, F].
    + destruct (IH true) as [L F]. simpl. split; [lia|].
      constructor; [right; reflexivity | apply W, F].
  - destruct (IH false) as [L F]. simpl. split; [lia|].
    constructor; [left; left; reflexivity | apply W, F].
Qed.

(** X15.  What the sanitizer of both scripts returns holds none of the
    characters it deletes, has no white space except single U+0020
    characters that never follow one another, is never longer than the
    input, and consists of characters of the input and U+0020 only. *)
Theorem clean_text_output (s : pystr) :
  let clean (clean_text : pystr -> pystr) (removed : N -> bool) :=
    Forall (fun c => removed c = false) (clean_text s)
    /\ Spec.single_spaced false (clean_text s) = true
    /\ (List.length (clean_text s) <= List.length s)%nat
    /\ Forall (fun c => In c s \/ c = SPACE) (clean_text s) in
  clean App.clean_text App.removed /\ clean Bill.clean_text Bill.removed.
Proof.
  assert (T : Forall (fun c => App.removed c = false) (App.clean_text s)
              /\ Spec.single_spaced false (App.clean_text s) = true
              /\ (List.length (App.clean_text s) <= List.length s)%nat
              /\ Forall (fun c => In c s \/ c = SPACE) (App.clean_text s)).
  { split; [apply clean_text_kept|].
    split; [apply squeeze_single_spaced|].
    unfold App.clean_text. cbv zeta.
    set (t := re_sub_class App.removed (strip s)).
    destruct (squeeze_shorter false t) as [L F].
    destruct (lstrip_shorter s) as [L1 I1].
    destruct (rstrip_shorter (lstrip s)) as [L2 I2].
    assert (It : incl t s).
    { intros x Hx. apply filter_In in Hx. destruct Hx as [Hx _].
      apply I1, I2, Hx. }
    assert (Lt : (List.length t <= List.length s)%nat).
    { unfold t, re_sub_class, strip.
      pose proof (filter_length_le (fun c => negb (App.removed c))
                    (rstrip (lstrip s))). lia. }
    split; [lia|].
    eapply Forall_impl; [|exact F]. simpl. intros x [Hx | Hx]; auto. }
  cbv zeta beta. split; exact T.
Qed.

(** X16.  The strings that the sanitizer of both scripts leaves as they
    are, are exactly those that hold none of the deleted characters, no
    white space except single U+0020 characters that never follow one
    another, and no white space at either end. *)
Theorem clean_text_fixed_points (s : pystr) :
  let settled :=
    Forall (fun c => App.removed c = false) s
    /\ Spec.single_spaced false s = true
    /\ Spec.starts_clean s = true /\ Spec.ends_clean s = true in
  (App.clean_text s = s <-> settled) /\ (Bill.clean_text s = s <-> settled).
Proof.
  assert (T : App.clean_text s = s <->
              Forall (fun c => App.removed c = false) s
              /\ Spec.single_spaced false s = true
              /\ Spec.starts_clean s = true /\ Spec.ends_clean s = true).
  { split.
    - intro E.
      assert (K : Forall Spec.kept s) by (rewrite <- E; apply clean_text_kept).
      pose proof (clean_text_trimmed s K) as S0. rewrite E in S0.
      split; [exact K|]. split; [|split].
      + rewrite <- E. apply squeeze_single_spaced.
      + rewrite <- S0. apply rstrip_starts_clean, lstrip_starts_clean.
      + rewrite <- S0. apply rstrip_ends_clean.
    - intros [K [S1 [A B]]]. unfold App.clean_text. cbv zeta.
      assert (S0 : strip s = s).
      { unfold strip. rewrite (lstrip_nothing _ A). apply rstrip_nothing, B. }
      rewrite S0, (re_sub_class_nothing s K). apply squeeze_nothing, S1. }
  cbv zeta. split; exact T.
Qed.

(** ** The fonts *)

Lemma arial_registered_accepted (paths : list Fonts.FontFile) :
  Fonts.arial_registered paths = true <-> In Fonts.Accepted paths.
Proof.
  induction paths as [|[| |] r IH]; simpl.
  - split; [discriminate | tauto].
  - rewrite IH. split; [tauto | intros [E | I]; [discriminate | exact I]].
  - rewrite IH. split; [tauto | intros [E | I]; [discriminate | exact I]].
  - split; auto.
Qed.

(** X17.  The table font is Arial exactly when the start-up loop ran to
    its end and met a font file that was accepted, and Helvetica
    otherwise; the page header is then set in Arial-Bold, respectively in
    Helvetica-Bold, and in no other font. *)
Theorem header_font_choice (arial_paths : option (list Fonts.FontFile)) :
  let found := exists paths,
      arial_paths = Some paths /\ In Fonts.Accepted paths in
  (found ->
   Fonts.arial_font arial_paths = "Arial"%string
   /\ Fonts.bold_font (Fonts.arial_font arial_paths) = "Arial-Bold"%string)
  /\ (~ found ->
      Fonts.arial_font arial_paths = "Helvetica"%string
      /\ Fonts.bold_font (Fonts.arial_font arial_paths)
         = "Helvetica-Bold"%string).
Proof.
  cbv zeta. destruct arial_paths as [paths|]; simpl.
  - destruct (Fonts.arial_registered paths) eqn:R.
    + split; [intros _; split; reflexivity|].
      intro N0. exfalso. apply N0. exists paths.
      split; [reflexivity | apply arial_registered_accepted, R].
    + split; [|intros _; split; reflexivity].
      intros [l [E I]]. inversion E. subst l.
      apply arial_registered_accepted in I. congruence.
  - split; [|intros _; split; reflexivity].
    intros [l [E _]]. discriminate.
Qed.

Lemma header_font_choice_witness :
  Fonts.arial_font (Some [Fonts.Missing; Fonts.Rejected; Fonts.Accepted])
  = "Arial"%string
  /\ Fonts.bold_font
       (Fonts.arial_font (Some [Fonts.Missing; Fonts.Rejected; Fonts.Accepted]))
     = "Arial-Bold"%string.
Proof.
  refine (proj1 (header_font_choice
                   (Some [Fonts.Missing; Fonts.Rejected; Fonts.Accepted])) _).
  eexists. split; [reflexivity|]. right. right. left. reflexivity.
Defined.

(** ** From the rows of the CSV to the rows of the table *)

Lemma table_data_columns (style : ParagraphStyle) (d : dict) :
  Spec.key_column (App.table_data style d) = List.map App.clean_text (keys d)
  /\ Spec.value_column (App.table_data style d)
     = List.map App.clean_text (List.map snd d)
  /\ List.length (App.table_data style d) = List.length d.
Proof.
  induction d as [|[k v] r [IH1 [IH2 IH3]]]; simpl; [auto|].
  rewrite IH1, IH2, IH3. auto.
Qed.

Lemma flat_map_agree {A B : Type} (f g : A -> list B) (l : list A) :
  (forall x, In x l -> f x = g x) -> flat_map f l = flat_map g l.
Proof.
  induction l as [|x r IH]; intro H; simpl; [reflexivity|].
  rewrite (H x (or_introl eq_refl)), IH; [reflexivity|].
  intros y Hy. apply H. right. exact Hy.
Qed.

Lemma get_values (d : dict) :
  NoDup (keys d) ->
  List.map snd d = flat_map (fun k => match get d k with
                                      | Some v => [v]
                                      | None => []
                                      end) (keys d).
Proof.
  induction d as [|[k v] r IH]; simpl; [reflexivity|].
  intro N0. inversion N0 as [|x l Hk Hr]. subst.
  rewrite str_eqb_refl. simpl. f_equal. rewrite (IH Hr).
  apply flat_map_agree.
  intros x Hx. destruct (str_eqb k x) eqn:E; [|reflexivity].
  apply str_eqb_eq in E. subst x.
  exfalso. apply Hk. exact Hx.
Qed.

(** X18.  The table rows that either script builds from the rows of the
    CSV are one row of two paragraphs per distinct key: the first column
    reads the sanitized keys in the order in which the rows first mention
    them, and the second column reads, for each of these keys, the
    sanitized value of the last row that mentions it. *)
Theorem table_follows_rows (style : ParagraphStyle)
  (rows : list (list pystr)) :
  let order := Spec.first_seen (Spec.row_keys rows) in
  let follows (table_data : list (list Cell)) :=
    Spec.key_column table_data = List.map App.clean_text order
    /\ Spec.value_column table_data
       = List.map App.clean_text
           (flat_map (fun k => match Spec.last_value k rows with
                               | Some v => [v]
                               | None => []
                               end) order)
    /\ List.length table_data = List.length order in
  follows (App.table_data style (App.read_rows rows))
  /\ follows (Bill.table_data style (Bill.read_rows rows)).
Proof.
  cbv zeta beta.
  assert (T : Spec.key_column (App.table_data style (App.read_rows rows))
              = List.map App.clean_text (Spec.first_seen (Spec.row_keys rows))
              /\ Spec.value_column (App.table_data style (App.read_rows rows))
                 = List.map App.clean_text
                     (flat_map (fun k => match Spec.last_value k rows with
                                         | Some v => [v]
                                         | None => []
                                         end)
                        (Spec.first_seen (Spec.row_keys rows)))
              /\ List.length (App.table_data style (App.read_rows rows))
                 = List.length (Spec.first_seen (Spec.row_keys rows))).
  { destruct (table_data_columns style (App.read_rows rows)) as [C1 [C2 C3]].
    rewrite C1, C2, C3.
    rewrite (get_values (App.read_rows rows))
      by (apply fold_read_row_nodup; constructor).
    rewrite <- app_read_rows_keys. split; [reflexivity|]. split.
    - f_equal. apply flat_map_ext. intro k.
      unfold App.read_rows. rewrite fold_read_row_get.
      destruct (Spec.last_value k rows); reflexivity.
    - unfold keys. rewrite length_map. reflexivity. }
  split; exact T.
Qed.
